(** * dummydb: the synthetic solar-yield database

    A shallow embedding of [fake_api/internal/source/dummydb.py] and the
    properties of its yield curve ([BasicSolarYieldFunc]) and of its series
    builder ([DummyDatabase.get_predicted_solar_yields_for_location]).

    Conventions of the embedding:
    - Python floats are idealised as real numbers ([R]); [math.sin] and
      [math.pi] are [sin] and [PI].
    - A Python number that may be an [int] or a [float] keeps its tag
      ([number]), so that the type of a record field can be talked about.
    - The two effects of the module, reading the wall clock and drawing from
      the global random generator, are threaded through a state monad whose
      state counts the reads and the draws made so far; the values read and
      drawn come from two streams the environment provides.
    - Exceptions are an explicit outcome of a computation ([Raise]).
    - The module is given in two layers.  The functions under their own
      names are the module on the arguments its library calls accept, in
      exact arithmetic.  Their [_checked] forms add what the library calls
      raise: [OverflowError] from datetime arithmetic outside
      [datetime.min .. datetime.max] and from the conversion of an integer
      no float can hold, [ValueError] from [datetime.fromtimestamp] on a
      year outside [MINYEAR .. MAXYEAR]; where the checks pass the two
      layers agree.
    - What binary64 rounding does to lines 81-85 is stated on a separate
      transcription of those lines over the kernel's floats. *)

From Stdlib Require Import PrimFloat SpecFloat FloatOps.
From Stdlib Require Import String Reals ZArith List Bool Lia Lra Psatz.
Import ListNotations.

Open Scope R_scope.

(** ** Python numbers *)

Inductive number : Type :=
| PyInt (z : Z)
| PyFloat (x : R).

Definition to_R (n : number) : R :=
  match n with
  | PyInt z => IZR z
  | PyFloat x => x
  end.

Definition is_int (n : number) : bool :=
  match n with
  | PyInt _ => true
  | PyFloat _ => false
  end.

Definition is_float (n : number) : bool :=
  match n with
  | PyInt _ => false
  | PyFloat _ => true
  end.

(** [int(x)] on a float: truncation towards zero. *)
Definition int (x : R) : Z :=
  if Rle_dec 0 x then Int_part x else (- Int_part (- x))%Z.

(** [max(0, x)]: Python returns the second argument only when it is
    strictly greater than the first. *)
Definition max0 (x : R) : R :=
  if Rlt_dec 0 x then x else 0.

(** [range(n)]: empty when [n <= 0]. *)
Definition range (n : Z) : list Z :=
  map Z.of_nat (seq 0 (Z.to_nat n)).

(** ** The part of [datetime] the module uses

    A [timedelta] is its total number of microseconds.  An aware UTC
    [datetime] is the number of microseconds since the epoch, on the
    unbounded proleptic Gregorian time line.  A naive local datetime, as
    [datetime.fromtimestamp] returns it, is its calendar fields. *)

Module dt.

Definition timedelta : Type := Z.
Definition datetime : Type := Z.

Definition us_per_second : Z := 1000000.
Definition us_per_day : Z := 86400 * us_per_second.

Definition days (n : Z) : timedelta := (n * us_per_day)%Z.
Definition minutes (n : Z) : timedelta := (n * (60 * us_per_second))%Z.

(** [d.replace(hour=0, minute=0, second=0, microsecond=0)] *)
Definition replace_midnight (d : datetime) : datetime :=
  (d - d mod us_per_day)%Z.

(** [d.timestamp()] of an aware datetime: a float of seconds. *)
Definition timestamp (d : datetime) : R :=
  IZR d / IZR us_per_second.

Record civil : Type := mkCivil {
  year : Z;
  month : Z;
  day : Z;
  hour : Z;
  minute : Z;
  second : Z;
  microsecond : Z
}.

(** Days since 1970-01-01 to (year, month, day). *)
Definition civil_from_days (z0 : Z) : Z * Z * Z :=
  let z := (z0 + 719468)%Z in
  let era := (z / 146097)%Z in
  let doe := (z - era * 146097)%Z in
  let yoe := ((doe - doe / 1460 + doe / 36524 - doe / 146096) / 365)%Z in
  let y := (yoe + era * 400)%Z in
  let doy := (doe - (365 * yoe + yoe / 4 - yoe / 100))%Z in
  let mp := ((5 * doy + 2) / 153)%Z in
  let d := (doy - (153 * mp + 2) / 5 + 1)%Z in
  let m := (if mp <? 10 then mp + 3 else mp - 9)%Z in
  ((if m <=? 2 then y + 1 else y)%Z, m, d).

(** The calendar fields of [us] microseconds since the epoch, shifted by
    [offset] seconds. *)
Definition civil_of_us (offset : Z) (us : Z) : civil :=
  let secs := (us / us_per_second + offset)%Z in
  let '(y, m, d) := civil_from_days (secs / 86400) in
  let sod := (secs mod 86400)%Z in
  {| year := y; month := m; day := d;
     hour := (sod / 3600)%Z;
     minute := (sod mod 3600 / 60)%Z;
     second := (sod mod 60)%Z;
     microsecond := (us mod us_per_second)%Z |}.

(** Rounding to the nearest integer, ties to even, as [fromtimestamp]
    rounds a float to microseconds. *)
Definition round_half_even (x : R) : Z :=
  let f := Int_part x in
  let r := x - IZR f in
  if Rlt_dec r (1 / 2) then f
  else if Rlt_dec (1 / 2) r then (f + 1)%Z
  else if Z.even f then f else (f + 1)%Z.

(** [datetime.fromtimestamp(t)]: the local calendar fields of [t].
    [tz s] is the offset of local time from UTC, in seconds, in force at
    epoch second [s]. *)
Definition fromtimestamp (tz : Z -> Z) (t : R) : civil :=
  let us := round_half_even (t * IZR us_per_second) in
  civil_of_us (tz (us / us_per_second)%Z) us.


End dt.

(** ** Effects: clock, random generator, exceptions *)

Record world : Type := mkWorld {
  clock_reads : nat;
  rng_draws : nat
}.

Inductive exn : Type :=
| ZeroDivisionError
| ValueError
| OverflowError.

Inductive result (A : Type) : Type :=
| Ok (a : A) (w : world)
| Raise (e : exn).

Arguments Ok {A} a w.
Arguments Raise {A} e.

Definition M (A : Type) : Type := world -> result A.

Definition ret {A : Type} (a : A) : M A := fun w => Ok a w.

Definition bind {A B : Type} (m : M A) (k : A -> M B) : M B :=
  fun w =>
    match m w with
    | Ok a w' => k a w'
    | Raise e => Raise e
    end.

Definition raise {A : Type} (e : exn) : M A := fun _ => Raise e.

Notation "x <- m ;; k" := (bind m (fun x => k))
  (at level 61, m at next level, right associativity).
Notation "' pat <- m ;; k" := (bind m (fun x => match x with pat => k end))
  (at level 61, pat pattern, m at next level, right associativity).

(** [for x in xs: acc = body(acc, x)] *)
Fixpoint for_each {A S : Type} (xs : list A) (body : S -> A -> M S)
    (acc : S) : M S :=
  match xs with
  | [] => ret acc
  | x :: xs' => acc' <- body acc x ;; for_each xs' body acc'
  end.

(** [a / b] on two timedeltas: true division, a float.  The quotient is
    taken exactly; Python returns the double nearest to it, which has the
    same integer part for microsecond counts below [2^52]. *)
Definition timedelta_truediv (a b : dt.timedelta) : M R :=
  if (b =? 0)%Z then raise ZeroDivisionError
  else ret (IZR a / IZR b).

(** ** The module *)

(** step defines the time interval between each data point *)
Definition step : dt.timedelta := dt.minutes 5.

Record FakeYield : Type := mkFakeYield {
  YieldKW : R;
  ErrLow : R;
  ErrHigh : R
}.

(** Modelled from the spec: [internal.DBPredictedYield], the record the
    interface returns, whose declaration is not part of this file
    (PredictedYieldRecord: timeUnix, yieldKW, errLow, errHigh).  Python does
    not enforce the annotations of a field, so each field holds the number
    the constructor is given, with its type. *)
Module internal.

Record DBPredictedYield : Type := mkDBPredictedYield {
  TimeUnix : number;
  YieldKW : number;
  ErrLow : number;
  ErrHigh : number
}.

End internal.

Definition default_scaleFactor : Z := 10000.

(** Lines 50-69: the steepened base function of a local time. *)
Definition basefunc (time : dt.civil) : R :=
  let hour := IZR (dt.day time) * 24 + IZR (dt.hour time)
              + IZR (dt.minute time) / 60 + IZR (dt.second time) / 3600 in
  let scaleX := PI / 12 in
  let translateX := (- PI) / 2 in
  let translateY := sin ((PI / 6) * IZR (dt.month time) + translateX) / 2.0 in
  let basefunc := sin (scaleX * hour + translateX) + translateY in
  let basefunc := max0 basefunc in
  basefunc ^ 4 / 1.5 ^ 4.

(** Lines 74-75: the noise multiplier, [r] being the random draw. *)
Definition noise (time : dt.civil) (r : R) : R :=
  let noise := (sin (PI * IZR (dt.hour time)) / 20)
               * (sin (PI * IZR (dt.hour time) / 3)) + 1 in
  noise * r / 20 + 0.97.

Section Environment.

(** Offset of local time from UTC (seconds) at a given epoch second. *)
Variable tz : Z -> Z.
(** The successive readings of the wall clock, in microseconds. *)
Variable clock : nat -> dt.datetime.
(** The successive values of [random.random()]. *)
Variable rand : nat -> R.

(** [dt.datetime.now(tz=dt.UTC)] *)
Definition now : M dt.datetime :=
  fun w => Ok (clock (clock_reads w))
              {| clock_reads := S (clock_reads w);
                 rng_draws := rng_draws w |}.

(** [random.random()] *)
Definition random : M R :=
  fun w => Ok (rand (rng_draws w))
              {| clock_reads := clock_reads w;
                 rng_draws := S (rng_draws w) |}.

Definition getWindow : M (dt.datetime * dt.datetime) :=
  n1 <- now ;;
  let start := dt.replace_midnight (n1 - dt.days 2)%Z in
  n2 <- now ;;
  let end_ := dt.replace_midnight (n2 + dt.days 2)%Z in
  ret (start, end_).

Definition BasicSolarYieldFunc (timeUnix : number) (scaleFactor : Z)
  : M FakeYield :=
  let time := dt.fromtimestamp tz (to_R timeUnix) in
  let basefunc := basefunc time in
  r <- random ;;
  let noise := noise time r in
  let output := basefunc * noise * IZR scaleFactor in
  if Rlt_dec 0 output then
    r1 <- random ;;
    let errLow := output - (r1 * output / 10) in
    r2 <- random ;;
    let errHigh := output + (r2 * output / 10) in
    ret {| YieldKW := output; ErrLow := errLow; ErrHigh := errHigh |}
  else
    ret {| YieldKW := output; ErrLow := 0.0; ErrHigh := 0.0 |}.

(** The body of the loop, lines 111-120. *)
Definition append_yield (start : dt.datetime)
    (yields : list internal.DBPredictedYield) (i : Z)
  : M (list internal.DBPredictedYield) :=
  let time := (start + i * step)%Z in
  _yield <- BasicSolarYieldFunc (PyFloat (dt.timestamp time))
                                default_scaleFactor ;;
  ret (yields ++
       [ {| internal.TimeUnix := PyFloat (dt.timestamp time);
            internal.YieldKW := PyInt (int (YieldKW _yield));
            internal.ErrLow := PyInt (int (ErrLow _yield));
            internal.ErrHigh := PyInt (int (ErrHigh _yield)) |} ]).

(** Lines 107-122: the series over a given window. *)
Definition yields_of_window (start end_ : dt.datetime)
  : M (list internal.DBPredictedYield) :=
  q <- timedelta_truediv (end_ - start)%Z step ;;
  let numSteps := int q in
  for_each (range numSteps) (append_yield start) [].

Definition get_predicted_solar_yields_for_location (location : string)
  : M (list internal.DBPredictedYield) :=
  ' (start, end_) <- getWindow ;;
  yields_of_window start end_.

End Environment.

(** ** The module with the exceptions of its library calls *)







Section CheckedEnvironment.

Variable tz : Z -> Z.
Variable clock : nat -> dt.datetime.
Variable rand : nat -> R.






End CheckedEnvironment.



(** ** Lines 81-85 in binary64 *)



(** ** Vocabulary of the statements *)

(** Every value of [random.random()] lies in the unit interval. *)
Definition draws_in_unit (rand : nat -> R) : Prop :=
  forall n : nat, 0 <= rand n <= 1.

(** The record the loop appends at step [i] for the sample [y]. *)
Definition record_at (start : dt.datetime) (i : Z) (y : FakeYield)
  : internal.DBPredictedYield :=
  {| internal.TimeUnix := PyFloat (dt.timestamp (start + i * step)%Z);
     internal.YieldKW := PyInt (int (YieldKW y));
     internal.ErrLow := PyInt (int (ErrLow y));
     internal.ErrHigh := PyInt (int (ErrHigh y)) |}.

(** Step [i] produced record [r]: some call of the yield curve on the
    timestamp of step [i] returned the sample [r] is built from. *)
Definition produced_at (tz : Z -> Z) (rand : nat -> R) (start : dt.datetime)
    (i : Z) (r : internal.DBPredictedYield) : Prop :=
  exists (y : FakeYield) (w w' : world),
    BasicSolarYieldFunc tz rand (PyFloat (dt.timestamp (start + i * step)%Z))
                        default_scaleFactor w = Ok y w'
    /\ r = record_at start i y.

(** ** A sample environment

    India Standard Time, a generator that always draws one half, and a
    clock standing at 2023-12-21T00:00:00Z. *)

Definition Asia_Kolkata : Z -> Z := fun _ => 19800%Z.

Definition half_draws : nat -> R := fun _ => 1 / 2.

Definition clock_2023_12_21 : nat -> dt.datetime :=
  fun _ => (1703116800 * dt.us_per_second)%Z.

Definition w0 : world := {| clock_reads := 0; rng_draws := 0 |}.

(** 2024-06-21 12:00:00 and 2023-12-21 00:00:00, India Standard Time. *)
Definition summer_noon : Z := 1718951400.
Definition winter_midnight : Z := 1703097000.






(** A clock standing at 2023-12-21T19:26:40Z, later on the same UTC day. *)
Definition clock_2023_12_21_evening : nat -> dt.datetime :=
  fun _ => (1703186800 * dt.us_per_second)%Z.

(** * Properties *)

(** ** Truncation and rounding *)

Lemma Int_part_IZR (z : Z) : Int_part (IZR z) = z.
Proof. symmetry. apply Int_part_spec. lra. Qed.

Lemma Int_part_nonneg (x : R) : 0 <= x -> (0 <= Int_part x)%Z.
Proof.
  intros Hx. destruct (base_Int_part x) as [_ Hlo].
  assert (H : IZR (-1) < IZR (Int_part x)) by lra.
  apply lt_IZR in H. lia.
Qed.

Lemma Int_part_le (x y : R) : x <= y -> (Int_part x <= Int_part y)%Z.
Proof.
  intros Hxy.
  destruct (base_Int_part x) as [Hx _], (base_Int_part y) as [_ Hy].
  assert (H : IZR (Int_part x) < IZR (Int_part y + 1)).
  { rewrite plus_IZR. lra. }
  apply lt_IZR in H. lia.
Qed.

Lemma int_nonneg (x : R) : 0 <= x -> (0 <= int x)%Z.
Proof.
  intros Hx. unfold int. destruct (Rle_dec 0 x); [|contradiction].
  now apply Int_part_nonneg.
Qed.

Lemma int_le (x y : R) : 0 <= x -> x <= y -> (int x <= int y)%Z.
Proof.
  intros Hx Hxy. unfold int.
  destruct (Rle_dec 0 x); [|contradiction].
  destruct (Rle_dec 0 y); [|lra].
  now apply Int_part_le.
Qed.


Lemma int_IZR (z : Z) : int (IZR z) = z.
Proof.
  unfold int. destruct (Rle_dec 0 (IZR z)).
  - apply Int_part_IZR.
  - rewrite <- opp_IZR, Int_part_IZR. lia.
Qed.

(** Float division of a non-negative timedelta by a positive one, then
    [int], is floor division of the microsecond counts. *)
Lemma int_div_floor (a b : Z) :
  (0 <= a)%Z -> (0 < b)%Z -> int (IZR a / IZR b) = (a / b)%Z.
Proof.
  intros Ha Hb.
  assert (HbR : 0 < IZR b) by now apply IZR_lt.
  assert (HaR : 0 <= IZR a) by now apply IZR_le.
  unfold int. destruct (Rle_dec 0 (IZR a / IZR b)) as [_|Hneg].
  - symmetry. apply Int_part_spec.
    pose proof (Z.div_mod a b ltac:(lia)) as Hdm.
    pose proof (Z.mod_pos_bound a b Hb) as [Hr0 Hr1].
    apply IZR_le in Hr0. apply IZR_lt in Hr1.
    assert (Heq : IZR a = IZR b * IZR (a / b) + IZR (a mod b)).
    { rewrite <- mult_IZR, <- plus_IZR. now f_equal. }
    assert (Hq : IZR a / IZR b = IZR (a / b) + IZR (a mod b) / IZR b).
    { rewrite Heq at 1. field. lra. }
    rewrite Hq.
    assert (0 <= IZR (a mod b) / IZR b < 1).
    { split.
      - apply Rmult_le_pos; [lra|]. left. now apply Rinv_0_lt_compat.
      - apply Rmult_lt_reg_r with (IZR b); [lra|].
        unfold Rdiv. rewrite Rmult_assoc, Rinv_l by lra. lra. }
    lra.
  - exfalso. apply Hneg. apply Rmult_le_pos; [lra|].
    left. now apply Rinv_0_lt_compat.
Qed.

Lemma round_half_even_IZR (z : Z) : dt.round_half_even (IZR z) = z.
Proof.
  unfold dt.round_half_even. rewrite Int_part_IZR.
  destruct (Rlt_dec (IZR z - IZR z) (1 / 2)) as [_|H]; [reflexivity|].
  exfalso. apply H. lra.
Qed.

(** On a whole number of seconds [fromtimestamp] is the calendar breakdown
    of that second: an executable form. *)
Lemma fromtimestamp_IZR (tz : Z -> Z) (s : Z) :
  dt.fromtimestamp tz (IZR s) = dt.civil_of_us (tz s) (s * dt.us_per_second).
Proof.
  unfold dt.fromtimestamp. rewrite <- mult_IZR, round_half_even_IZR.
  rewrite Z.div_mul by (unfold dt.us_per_second; lia). reflexivity.
Qed.

(** ** Trigonometry at whole multiples of [PI] *)

Lemma sin_PI_IZR (k : Z) : sin (PI * IZR k) = 0.
Proof. apply sin_eq_0_1. exists k. ring. Qed.

Lemma cos_2PI_IZR (k : Z) : cos (2 * (PI * IZR k)) = 1.
Proof.
  rewrite cos_2a_sin, sin_PI_IZR. ring.
Qed.

Lemma sin_midnight (d : Z) :
  sin (PI / 12 * (IZR d * 24 + IZR 0 + IZR 0 / 60 + IZR 0 / 3600)
       + (- PI) / 2) = -1.
Proof.
  replace (PI / 12 * (IZR d * 24 + IZR 0 + IZR 0 / 60 + IZR 0 / 3600)
           + (- PI) / 2)
    with (2 * (PI * IZR d) - PI / 2) by field.
  rewrite sin_minus, cos_2PI_IZR, sin_PI2, cos_PI2. ring.
Qed.

Lemma sin_noon (d : Z) :
  sin (PI / 12 * (IZR d * 24 + IZR 12 + IZR 0 / 60 + IZR 0 / 3600)
       + (- PI) / 2) = 1.
Proof.
  replace (PI / 12 * (IZR d * 24 + IZR 12 + IZR 0 / 60 + IZR 0 / 3600)
           + (- PI) / 2)
    with (2 * (PI * IZR d) + PI / 2) by field.
  rewrite sin_plus, cos_2PI_IZR, sin_PI2, cos_PI2. ring.
Qed.

(** ** The yield curve *)

Lemma max0_nonneg (x : R) : 0 <= max0 x.
Proof. unfold max0. destruct (Rlt_dec 0 x); lra. Qed.

Lemma max0_le (x b : R) : 0 <= b -> x <= b -> max0 x <= b.
Proof. intros Hb Hx. unfold max0. destruct (Rlt_dec 0 x); lra. Qed.

Lemma max0_of_nonpos (x : R) : x <= 0 -> max0 x = 0.
Proof. intros Hx. unfold max0. destruct (Rlt_dec 0 x); lra. Qed.

(** The seasonal offset [translateY] stays within a half. *)
Lemma translateY_bound (m : Z) :
  - (1 / 2) <= sin (PI / 6 * IZR m + (- PI) / 2) / 2.0 <= 1 / 2.
Proof.
  pose proof (SIN_bound (PI / 6 * IZR m + (- PI) / 2)). lra.
Qed.

Lemma basefunc_range (time : dt.civil) : 0 <= basefunc time <= 1.
Proof.
  unfold basefunc.
  set (h := IZR (dt.day time) * 24 + IZR (dt.hour time)
            + IZR (dt.minute time) / 60 + IZR (dt.second time) / 3600).
  set (b := sin (PI / 12 * h + (- PI) / 2)
            + sin (PI / 6 * IZR (dt.month time) + (- PI) / 2) / 2.0).
  assert (Hb : b <= 1.5).
  { unfold b. pose proof (SIN_bound (PI / 12 * h + (- PI) / 2)).
    pose proof (translateY_bound (dt.month time)). lra. }
  pose proof (max0_nonneg b) as H0.
  assert (H1 : max0 b <= 1.5) by (apply max0_le; lra).
  assert (Hpow : max0 b ^ 4 <= 1.5 ^ 4) by (apply pow_incr; lra).
  assert (Hpos : 0 <= max0 b ^ 4) by now apply pow_le.
  assert (Hd : 0 < 1.5 ^ 4) by lra.
  split.
  - apply Rmult_le_pos; [assumption|]. left. now apply Rinv_0_lt_compat.
  - apply Rmult_le_reg_r with (1.5 ^ 4); [assumption|].
    unfold Rdiv. rewrite Rmult_assoc, Rinv_l by lra. lra.
Qed.

(** At local midnight the base sinusoid is at its minimum, below what the
    seasonal offset can lift: nothing is left after the clip. *)
Lemma basefunc_midnight (time : dt.civil) :
  dt.hour time = 0%Z -> dt.minute time = 0%Z -> dt.second time = 0%Z ->
  basefunc time = 0.
Proof.
  intros Hh Hm Hs. unfold basefunc. rewrite Hh, Hm, Hs, sin_midnight.
  pose proof (translateY_bound (dt.month time)).
  rewrite max0_of_nonpos by lra. lra.
Qed.

(** The envelope [sin(pi * time.hour) / 20 * sin(pi * time.hour / 3) + 1]
    is taken at the integer hour field, where its first factor vanishes. *)
Lemma noise_eq (time : dt.civil) (r : R) : noise time r = r / 20 + 0.97.
Proof. unfold noise. rewrite sin_PI_IZR. lra. Qed.

Lemma noise_range (time : dt.civil) (r : R) :
  0 <= r <= 1 -> 0.97 <= noise time r <= 1.02.
Proof. intros Hr. rewrite noise_eq. lra. Qed.

(** What a call of [BasicSolarYieldFunc] returns, and the draws it makes. *)
Lemma BasicSolarYieldFunc_returns (tz : Z -> Z) (rand : nat -> R)
    (timeUnix : number) (scaleFactor : Z) (w : world) :
  let time := dt.fromtimestamp tz (to_R timeUnix) in
  let output := basefunc time * noise time (rand (rng_draws w))
                * IZR scaleFactor in
  exists (y : FakeYield) (w' : world),
    BasicSolarYieldFunc tz rand timeUnix scaleFactor w = Ok y w'
    /\ clock_reads w' = clock_reads w
    /\ YieldKW y = output
    /\ (0 < output ->
        ErrLow y = output - rand (S (rng_draws w)) * output / 10
        /\ ErrHigh y = output + rand (S (S (rng_draws w))) * output / 10)
    /\ (~ 0 < output -> ErrLow y = 0 /\ ErrHigh y = 0).
Proof.
  intros time output.
  unfold BasicSolarYieldFunc.
  change (dt.fromtimestamp tz (to_R timeUnix)) with time.
  clearbody time.
  cbv [bind random ret]. cbn [rng_draws clock_reads].
  change (basefunc time * noise time (rand (rng_draws w)) * IZR scaleFactor)
    with output.
  clearbody output.
  destruct (Rlt_dec 0 output) as [Hpos|Hnpos].
  - eexists. eexists. split; [reflexivity|].
    cbn [rng_draws clock_reads YieldKW ErrLow ErrHigh].
    repeat split; tauto.
  - eexists. eexists. split; [reflexivity|].
    cbn [rng_draws clock_reads YieldKW ErrLow ErrHigh].
    repeat split; try tauto; lra.
Qed.

Lemma Ok_inj {A : Type} (a b : A) (w w' : world) :
  Ok a w = Ok b w' -> a = b /\ w = w'.
Proof. intros H. now inversion H. Qed.


(** C5: whenever the returned [YieldKW] is 0, [ErrLow] and [ErrHigh] are
    both 0. *)
Theorem BasicSolarYieldFunc_zero_yield (tz : Z -> Z) (rand : nat -> R)
    (timeUnix : number) (scaleFactor : Z) (w : world) :
  exists (y : FakeYield) (w' : world),
    BasicSolarYieldFunc tz rand timeUnix scaleFactor w = Ok y w'
    /\ (YieldKW y = 0 -> ErrLow y = 0 /\ ErrHigh y = 0).
Proof.
  destruct (BasicSolarYieldFunc_returns tz rand timeUnix scaleFactor w)
    as (y & w' & Hret & _ & HY & _ & Hzero).
  exists y, w'. split; [exact Hret|]. intros HY0.
  apply Hzero. rewrite <- HY, HY0. lra.
Qed.

(** C6: at a timestamp whose local calendar breakdown is midnight (hour,
    minute and second all 0), in any month, [BasicSolarYieldFunc] returns
    [YieldKW = 0] and [ErrLow = ErrHigh = 0]. *)
Theorem BasicSolarYieldFunc_midnight (tz : Z -> Z) (rand : nat -> R)
    (timeUnix : number) (scaleFactor : Z) (w : world) :
  dt.hour (dt.fromtimestamp tz (to_R timeUnix)) = 0%Z ->
  dt.minute (dt.fromtimestamp tz (to_R timeUnix)) = 0%Z ->
  dt.second (dt.fromtimestamp tz (to_R timeUnix)) = 0%Z ->
  exists (y : FakeYield) (w' : world),
    BasicSolarYieldFunc tz rand timeUnix scaleFactor w = Ok y w'
    /\ YieldKW y = 0 /\ ErrLow y = 0 /\ ErrHigh y = 0.
Proof.
  intros Hh Hm Hs.
  destruct (BasicSolarYieldFunc_returns tz rand timeUnix scaleFactor w)
    as (y & w' & Hret & _ & HY & _ & Hzero).
  exists y, w'. split; [exact Hret|].
  rewrite (basefunc_midnight _ Hh Hm Hs) in HY, Hzero.
  assert (HY0 : YieldKW y = 0) by (rewrite HY; ring).
  split; [exact HY0|]. apply Hzero. lra.
Qed.

(** ** The window *)

Lemma step_eq : step = (300 * dt.us_per_second)%Z.
Proof. reflexivity. Qed.

Lemma step_pos : (0 < step)%Z.
Proof. reflexivity. Qed.

Lemma replace_midnight_mono (a b : dt.datetime) :
  (a <= b)%Z -> (dt.replace_midnight a <= dt.replace_midnight b)%Z.
Proof.
  intros Hab. unfold dt.replace_midnight.
  assert (HD : (0 < dt.us_per_day)%Z) by reflexivity.
  pose proof (Z.div_mod a dt.us_per_day ltac:(lia)) as Ha.
  pose proof (Z.div_mod b dt.us_per_day ltac:(lia)) as Hb.
  pose proof (Z.div_le_mono a b dt.us_per_day HD Hab) as Hq.
  nia.
Qed.

Lemma getWindow_returns (clock : nat -> dt.datetime) (w : world) :
  getWindow clock w
  = Ok (dt.replace_midnight (clock (clock_reads w) - dt.days 2)%Z,
        dt.replace_midnight (clock (S (clock_reads w)) + dt.days 2)%Z)
       {| clock_reads := S (S (clock_reads w)); rng_draws := rng_draws w |}.
Proof. reflexivity. Qed.

Lemma timestamp_step (start : dt.datetime) (i : Z) :
  dt.timestamp (start + i * step)%Z = dt.timestamp start + 300 * IZR i.
Proof.
  unfold dt.timestamp. rewrite step_eq, plus_IZR, !mult_IZR.
  unfold dt.us_per_second. field.
Qed.


(** ** The loop *)

Lemma append_yield_returns (tz : Z -> Z) (rand : nat -> R)
    (start : dt.datetime) (acc : list internal.DBPredictedYield) (i : Z)
    (w : world) :
  exists (r : internal.DBPredictedYield) (w' : world),
    append_yield tz rand start acc i w = Ok (acc ++ [r]) w'
    /\ clock_reads w' = clock_reads w
    /\ produced_at tz rand start i r.
Proof.
  destruct (BasicSolarYieldFunc_returns tz rand
              (PyFloat (dt.timestamp (start + i * step)%Z))
              default_scaleFactor w)
    as (y & w' & Hret & Hclock & _).
  exists (record_at start i y), w'.
  split; [|split; [exact Hclock|]].
  - unfold append_yield, bind. rewrite Hret. reflexivity.
  - exists y, w, w'. split; [exact Hret|reflexivity].
Qed.

Lemma for_each_append_yield (tz : Z -> Z) (rand : nat -> R)
    (start : dt.datetime) (xs : list Z) :
  forall (acc : list internal.DBPredictedYield) (w : world),
  exists (ys : list internal.DBPredictedYield) (w' : world),
    for_each xs (append_yield tz rand start) acc w = Ok (acc ++ ys) w'
    /\ clock_reads w' = clock_reads w
    /\ Forall2 (produced_at tz rand start) xs ys.
Proof.
  induction xs as [|x xs IH]; intros acc w.
  - exists [], w. rewrite app_nil_r. repeat split. constructor.
  - destruct (append_yield_returns tz rand start acc x w)
      as (r & w1 & Hbody & Hc1 & Hr).
    destruct (IH (acc ++ [r]) w1) as (ys & w' & Hrest & Hc2 & Hys).
    exists (r :: ys), w'. split; [|split].
    + cbn [for_each]. unfold bind. rewrite Hbody, Hrest.
      now rewrite <- app_assoc.
    + congruence.
    + now constructor.
Qed.

Lemma yields_of_window_returns (tz : Z -> Z) (rand : nat -> R)
    (start end_ : dt.datetime) (w : world) :
  exists (ys : list internal.DBPredictedYield) (w' : world),
    yields_of_window tz rand start end_ w = Ok ys w'
    /\ clock_reads w' = clock_reads w
    /\ Forall2 (produced_at tz rand start)
               (range (int (IZR (end_ - start) / IZR step))) ys.
Proof.
  destruct (for_each_append_yield tz rand start
              (range (int (IZR (end_ - start) / IZR step))) [] w)
    as (ys & w' & Hloop & Hc & Hys).
  exists ys, w'. split; [|split; assumption].
  unfold yields_of_window, timedelta_truediv, bind.
  change (step =? 0)%Z with false. cbv [ret]. exact Hloop.
Qed.

Lemma range_length (n : Z) : length (range n) = Z.to_nat n.
Proof. unfold range. now rewrite length_map, length_seq. Qed.

Lemma Forall2_seq_nth_error {B : Type} (P : Z -> B -> Prop) (len : nat) :
  forall (s : nat) (ys : list B),
    Forall2 P (map Z.of_nat (seq s len)) ys ->
    forall (i : nat) (r : B),
      nth_error ys i = Some r -> P (Z.of_nat (s + i)) r.
Proof.
  induction len as [|len IH]; intros s ys HF i r Hnth.
  - inversion HF; subst. destruct i; discriminate.
  - cbn [seq map] in HF. inversion HF as [|x y xs ys' Hxy Hrest]; subst.
    destruct i as [|i]; cbn [nth_error] in Hnth.
    + inversion Hnth; subst. now rewrite Nat.add_0_r.
    + replace (s + S i)%nat with (S s + i)%nat by lia.
      now apply (IH (S s) ys').
Qed.

Lemma Forall2_range_nth_error {B : Type} (P : Z -> B -> Prop) (n : Z)
    (ys : list B) :
  Forall2 P (range n) ys ->
  forall (i : nat) (r : B), nth_error ys i = Some r -> P (Z.of_nat i) r.
Proof.
  intros HF i r Hnth.
  now apply (Forall2_seq_nth_error P (Z.to_nat n) 0 ys HF i r).
Qed.

Lemma Forall2_Forall_r {A B : Type} (P : A -> B -> Prop) (Q : B -> Prop)
    (xs : list A) (ys : list B) :
  (forall a b, P a b -> Q b) -> Forall2 P xs ys -> Forall Q ys.
Proof.
  intros HPQ HF. induction HF; constructor; eauto.
Qed.

Lemma produced_at_TimeUnix (tz : Z -> Z) (rand : nat -> R)
    (start : dt.datetime) (i : Z) (r : internal.DBPredictedYield) :
  produced_at tz rand start i r ->
  internal.TimeUnix r = PyFloat (dt.timestamp start + 300 * IZR i).
Proof.
  intros (y & w & w' & _ & ->). cbn. now rewrite timestamp_step.
Qed.

Lemma produced_at_types (tz : Z -> Z) (rand : nat -> R)
    (start : dt.datetime) (i : Z) (r : internal.DBPredictedYield) :
  produced_at tz rand start i r ->
  is_float (internal.TimeUnix r) = true
  /\ is_int (internal.TimeUnix r) = false
  /\ is_int (internal.YieldKW r) = true
  /\ is_int (internal.ErrLow r) = true
  /\ is_int (internal.ErrHigh r) = true.
Proof.
  intros (y & w & w' & _ & ->). cbn. repeat split.
Qed.

(** A sample of the curve, for a non-negative scale factor and draws in the
    unit interval, is ordered: [0 <= ErrLow <= YieldKW <= ErrHigh]. *)
Lemma BasicSolarYieldFunc_ordered (tz : Z -> Z) (rand : nat -> R)
    (timeUnix : number) (scaleFactor : Z) (w w' : world) (y : FakeYield) :
  draws_in_unit rand ->
  (0 <= scaleFactor)%Z ->
  BasicSolarYieldFunc tz rand timeUnix scaleFactor w = Ok y w' ->
  0 <= ErrLow y /\ ErrLow y <= YieldKW y /\ YieldKW y <= ErrHigh y.
Proof.
  intros Hrand Hscale Hret.
  destruct (BasicSolarYieldFunc_returns tz rand timeUnix scaleFactor w)
    as (y0 & w0 & Hret0 & _ & HY & Hpos & Hzero).
  rewrite Hret in Hret0. apply Ok_inj in Hret0 as [<- _].
  set (time := dt.fromtimestamp tz (to_R timeUnix)) in *.
  pose proof (basefunc_range time) as [Hb _].
  pose proof (noise_range time _ (Hrand (rng_draws w))) as [Hn _].
  apply IZR_le in Hscale.
  assert (HY0 : 0 <= YieldKW y).
  { rewrite HY. apply Rmult_le_pos; [apply Rmult_le_pos|]; lra. }
  rewrite <- HY in Hpos, Hzero.
  destruct (Rlt_dec 0 (YieldKW y)) as [Hp|Hnp].
  - destruct (Hpos Hp) as [HL HH].
    pose proof (Hrand (S (rng_draws w))) as H1.
    pose proof (Hrand (S (S (rng_draws w)))) as H2.
    rewrite HL, HH. nra.
  - destruct (Hzero Hnp) as [HL HH]. rewrite HL, HH. lra.
Qed.

Lemma produced_at_ordered (tz : Z -> Z) (rand : nat -> R)
    (start : dt.datetime) (i : Z) (r : internal.DBPredictedYield) :
  draws_in_unit rand ->
  produced_at tz rand start i r ->
  exists (l y h : Z),
    internal.ErrLow r = PyInt l /\ internal.YieldKW r = PyInt y
    /\ internal.ErrHigh r = PyInt h
    /\ (0 <= l)%Z /\ (l <= y)%Z /\ (y <= h)%Z.
Proof.
  intros Hrand (y & w & w' & Hret & ->).
  apply BasicSolarYieldFunc_ordered in Hret as (HL & HLY & HYH);
    [|assumption|unfold default_scaleFactor; lia].
  exists (int (ErrLow y)), (int (YieldKW y)), (int (ErrHigh y)).
  cbn. repeat split.
  - now apply int_nonneg.
  - now apply int_le.
  - apply int_le; lra.
Qed.

Lemma Forall2_map_eq {A B C : Type} (P : A -> B -> Prop) (f : B -> C)
    (g : A -> C) (xs : list A) (ys : list B) :
  (forall a b, P a b -> f b = g a) ->
  Forall2 P xs ys -> map f ys = map g xs.
Proof.
  intros Hfg HF. induction HF; cbn; [reflexivity|].
  f_equal; auto.
Qed.

Lemma get_predicted_returns (tz : Z -> Z) (clock : nat -> dt.datetime)
    (rand : nat -> R) (location : string) (w : world) :
  let start := dt.replace_midnight (clock (clock_reads w) - dt.days 2)%Z in
  let end_ := dt.replace_midnight (clock (S (clock_reads w)) + dt.days 2)%Z in
  exists (ys : list internal.DBPredictedYield) (w' : world),
    get_predicted_solar_yields_for_location tz clock rand location w
    = Ok ys w'
    /\ Forall2 (produced_at tz rand start)
               (range (int (IZR (end_ - start) / IZR step))) ys.
Proof.
  intros start end_.
  destruct (yields_of_window_returns tz rand start end_
              {| clock_reads := S (S (clock_reads w));
                 rng_draws := rng_draws w |})
    as (ys & w' & Hret & _ & Hys).
  exists ys, w'. split; [|exact Hys].
  unfold get_predicted_solar_yields_for_location, bind.
  rewrite getWindow_returns. exact Hret.
Qed.

(** ** The series *)

Lemma replace_midnight_whole_seconds (d : dt.datetime) :
  exists q : Z, dt.replace_midnight d = (q * dt.us_per_second)%Z.
Proof.
  exists (86400 * (d / dt.us_per_day))%Z. unfold dt.replace_midnight.
  pose proof (Z.div_mod d dt.us_per_day ltac:(discriminate)) as Hdm.
  unfold dt.us_per_day in *. lia.
Qed.

Lemma produced_at_whole_seconds (tz : Z -> Z) (rand : nat -> R)
    (start q : Z) (i : Z) (r : internal.DBPredictedYield) :
  start = (q * dt.us_per_second)%Z ->
  produced_at tz rand start i r ->
  exists k : Z, internal.TimeUnix r = PyFloat (IZR k).
Proof.
  intros Hq Hp. apply produced_at_TimeUnix in Hp.
  exists (q + 300 * i)%Z. rewrite Hp. f_equal.
  rewrite plus_IZR, mult_IZR. subst start.
  unfold dt.timestamp. rewrite mult_IZR. unfold dt.us_per_second. field.
Qed.

(** C3: the code builds every record with [TimeUnix = time.timestamp()], a
    float, where the record shape asks for an integer; the three other
    fields are integers.  The float is a whole number of seconds, and the
    series is not empty when the clock does not run backwards. *)
Theorem series_TimeUnix_is_float (tz : Z -> Z) (clock : nat -> dt.datetime)
    (rand : nat -> R) (location : string) (w : world) :
  exists (yields : list internal.DBPredictedYield) (w' : world),
    get_predicted_solar_yields_for_location tz clock rand location w
    = Ok yields w'
    /\ Forall (fun r =>
                 (exists k : Z, internal.TimeUnix r = PyFloat (IZR k))
                 /\ is_float (internal.TimeUnix r) = true
                 /\ is_int (internal.TimeUnix r) = false
                 /\ is_int (internal.YieldKW r) = true
                 /\ is_int (internal.ErrLow r) = true
                 /\ is_int (internal.ErrHigh r) = true) yields
    /\ ((clock (clock_reads w) <= clock (S (clock_reads w)))%Z ->
        (1152 <= length yields)%nat).
Proof.
  destruct (get_predicted_returns tz clock rand location w)
    as (ys & w' & Hret & Hys).
  exists ys, w'. split; [exact Hret|]. split.
  - eapply Forall2_Forall_r; [|exact Hys].
    intros i r Hp. split; [|now apply produced_at_types in Hp].
    destruct (replace_midnight_whole_seconds
                (clock (clock_reads w) - dt.days 2)%Z) as (q & Hq).
    exact (produced_at_whole_seconds _ _ _ q i r Hq Hp).
  - intros Hclock.
    set (start := dt.replace_midnight (clock (clock_reads w) - dt.days 2)%Z)
      in *.
    set (end_ := dt.replace_midnight (clock (S (clock_reads w)) + dt.days 2)%Z)
      in *.
    assert (Hlong : (start + dt.days 4 <= end_)%Z).
    { unfold start, end_, dt.replace_midnight.
      set (a := clock (clock_reads w)) in *.
      set (b := clock (S (clock_reads w))) in *.
      assert (HD : (0 < dt.us_per_day)%Z) by reflexivity.
      replace (a - dt.days 2)%Z with (a + (-2) * dt.us_per_day)%Z
        by (unfold dt.days; lia).
      replace (b + dt.days 2)%Z with (b + 2 * dt.us_per_day)%Z
        by (unfold dt.days; lia).
      rewrite !Z.mod_add by lia.
      pose proof (replace_midnight_mono a b Hclock) as Hm.
      unfold dt.replace_midnight in Hm. unfold dt.days. lia. }
    assert (H4 : (0 < dt.days 4)%Z) by reflexivity.
    rewrite int_div_floor in Hys by (try apply step_pos; lia).
    apply Forall2_length in Hys. rewrite range_length in Hys.
    rewrite <- Hys.
    assert (Hq : (1152 <= (end_ - start) / step)%Z).
    { apply Z.div_le_lower_bound; [apply step_pos|].
      change (step * 1152)%Z with (dt.days 4). lia. }
    lia.
Qed.

(** C7: the location does not influence the number of records or their
    timestamps: for the same clock readings, any two locations (and any
    two runs of the random generator) give series of the same length with
    the same [TimeUnix] values. *)
Theorem location_is_ignored (tz : Z -> Z) (clock : nat -> dt.datetime)
    (rand1 rand2 : nat -> R) (location1 location2 : string)
    (reads draws1 draws2 : nat) :
  exists (yields1 yields2 : list internal.DBPredictedYield)
         (w1 w2 : world),
    get_predicted_solar_yields_for_location tz clock rand1 location1
      {| clock_reads := reads; rng_draws := draws1 |} = Ok yields1 w1
    /\ get_predicted_solar_yields_for_location tz clock rand2 location2
         {| clock_reads := reads; rng_draws := draws2 |} = Ok yields2 w2
    /\ length yields1 = length yields2
    /\ map internal.TimeUnix yields1 = map internal.TimeUnix yields2.
Proof.
  destruct (get_predicted_returns tz clock rand1 location1
              {| clock_reads := reads; rng_draws := draws1 |})
    as (ys1 & w1 & Hret1 & Hys1).
  destruct (get_predicted_returns tz clock rand2 location2
              {| clock_reads := reads; rng_draws := draws2 |})
    as (ys2 & w2 & Hret2 & Hys2).
  cbn [clock_reads] in Hys1, Hys2.
  exists ys1, ys2, w1, w2. split; [exact Hret1|]. split; [exact Hret2|].
  split.
  - now rewrite <- (Forall2_length Hys1), <- (Forall2_length Hys2).
  - rewrite (Forall2_map_eq _ internal.TimeUnix _ _ _
               (produced_at_TimeUnix tz rand1 _) Hys1).
    rewrite (Forall2_map_eq _ internal.TimeUnix _ _ _
               (produced_at_TimeUnix tz rand2 _) Hys2).
    reflexivity.
Qed.

(** C9: with draws in [0,1], every record of the series has integer yield
    and error bounds with [0 <= ErrLow <= YieldKW <= ErrHigh]. *)
Theorem series_band_ordered (tz : Z -> Z) (clock : nat -> dt.datetime)
    (rand : nat -> R) (location : string) (w : world) :
  draws_in_unit rand ->
  exists (yields : list internal.DBPredictedYield) (w' : world),
    get_predicted_solar_yields_for_location tz clock rand location w
    = Ok yields w'
    /\ Forall (fun r =>
                 exists (l y h : Z),
                   internal.ErrLow r = PyInt l
                   /\ internal.YieldKW r = PyInt y
                   /\ internal.ErrHigh r = PyInt h
                   /\ (0 <= l)%Z /\ (l <= y)%Z /\ (y <= h)%Z) yields.
Proof.
  intros Hrand.
  destruct (get_predicted_returns tz clock rand location w)
    as (ys & w' & Hret & Hys).
  exists ys, w'. split; [exact Hret|].
  eapply Forall2_Forall_r; [|exact Hys].
  intros i r. now apply produced_at_ordered.
Qed.

(** C10, amended: with the draw in [0,1] the noise multiplier is
    [random/20 + 0.97], within [[0.97, 1.02]], the envelope being 1 at the
    integer hour field; the steepened base function lies in [[0, 1]]; and
    for a scale factor that is not negative the returned [YieldKW] is at
    most [1.02 * scaleFactor]. *)
Theorem noise_and_yield_bound (tz : Z -> Z) (rand : nat -> R)
    (timeUnix : number) (scaleFactor : Z) (w : world) :
  draws_in_unit rand ->
  (0 <= scaleFactor)%Z ->
  let time := dt.fromtimestamp tz (to_R timeUnix) in
  let r := rand (rng_draws w) in
  noise time r = r / 20 + 0.97
  /\ 0.97 <= noise time r <= 1.02
  /\ 0 <= basefunc time <= 1
  /\ exists (y : FakeYield) (w' : world),
       BasicSolarYieldFunc tz rand timeUnix scaleFactor w = Ok y w'
       /\ YieldKW y = basefunc time * noise time r * IZR scaleFactor
       /\ YieldKW y <= 1.02 * IZR scaleFactor.
Proof.
  intros Hrand Hscale time r.
  pose proof (noise_range time r (Hrand (rng_draws w))) as Hn.
  pose proof (basefunc_range time) as Hb.
  split; [apply noise_eq|]. split; [exact Hn|]. split; [exact Hb|].
  destruct (BasicSolarYieldFunc_returns tz rand timeUnix scaleFactor w)
    as (y & w' & Hret & _ & HY & _).
  exists y, w'. split; [exact Hret|]. split; [exact HY|].
  rewrite HY. fold time. fold r. apply IZR_le in Hscale.
  apply Rmult_le_compat_r; [exact Hscale|]. nra.
Qed.

(** ** The statements at the sample environment *)

Lemma half_draws_in_unit : draws_in_unit half_draws.
Proof. intros n. unfold half_draws. lra. Qed.

Lemma fromtimestamp_summer_noon :
  dt.fromtimestamp Asia_Kolkata (to_R (PyInt summer_noon))
  = {| dt.year := 2024; dt.month := 6; dt.day := 21;
       dt.hour := 12; dt.minute := 0; dt.second := 0;
       dt.microsecond := 0 |}.
Proof. cbn [to_R]. rewrite fromtimestamp_IZR. reflexivity. Qed.

Lemma fromtimestamp_winter_midnight :
  dt.fromtimestamp Asia_Kolkata (to_R (PyInt winter_midnight))
  = {| dt.year := 2023; dt.month := 12; dt.day := 21;
       dt.hour := 0; dt.minute := 0; dt.second := 0;
       dt.microsecond := 0 |}.
Proof. cbn [to_R]. rewrite fromtimestamp_IZR. reflexivity. Qed.

(** At noon of the summer solstice the steepened base function peaks. *)
Lemma basefunc_summer_noon :
  basefunc (dt.fromtimestamp Asia_Kolkata (to_R (PyInt summer_noon))) = 1.
Proof.
  rewrite fromtimestamp_summer_noon. unfold basefunc.
  cbn [dt.day dt.hour dt.minute dt.second dt.month].
  rewrite sin_noon.
  replace (PI / 6 * IZR 6 + (- PI) / 2) with (PI / 2) by field.
  rewrite sin_PI2. unfold max0.
  destruct (Rlt_dec 0 (1 + 1 / 2.0)) as [_|H]; [|exfalso; apply H; lra].
  replace (1 + 1 / 2.0) with 1.5 by lra.
  unfold Rdiv. apply Rinv_r. lra.
Qed.


Lemma BasicSolarYieldFunc_zero_yield_witness :
  exists (y : FakeYield) (w' : world),
    BasicSolarYieldFunc Asia_Kolkata half_draws (PyInt winter_midnight)
                        default_scaleFactor w0 = Ok y w'
    /\ YieldKW y = 0 /\ ErrLow y = 0 /\ ErrHigh y = 0.
Proof.
  destruct (BasicSolarYieldFunc_zero_yield Asia_Kolkata half_draws
              (PyInt winter_midnight) default_scaleFactor w0)
    as (y & w' & Hret & Hzero).
  exists y, w'. split; [exact Hret|].
  assert (HY0 : YieldKW y = 0).
  { destruct (BasicSolarYieldFunc_returns Asia_Kolkata half_draws
                (PyInt winter_midnight) default_scaleFactor w0)
      as (y0 & w1 & Hret0 & _ & HY & _).
    rewrite Hret in Hret0. apply Ok_inj in Hret0 as [<- _].
    rewrite HY, basefunc_midnight;
      [ring| | |]; rewrite fromtimestamp_winter_midnight; reflexivity. }
  split; [exact HY0|]. exact (Hzero HY0).
Defined.

Lemma BasicSolarYieldFunc_midnight_witness :
  let time := dt.fromtimestamp Asia_Kolkata (to_R (PyInt winter_midnight)) in
  dt.month time = 12%Z /\ dt.day time = 21%Z
  /\ dt.hour time = 0%Z /\ dt.minute time = 0%Z /\ dt.second time = 0%Z
  /\ exists (y : FakeYield) (w' : world),
       BasicSolarYieldFunc Asia_Kolkata half_draws (PyInt winter_midnight)
                           default_scaleFactor w0 = Ok y w'
       /\ YieldKW y = 0 /\ ErrLow y = 0 /\ ErrHigh y = 0.
Proof.
  cbv zeta.
  repeat (split; [rewrite fromtimestamp_winter_midnight; reflexivity|]).
  apply BasicSolarYieldFunc_midnight;
    rewrite fromtimestamp_winter_midnight; reflexivity.
Defined.

Lemma series_TimeUnix_is_float_witness :
  exists (yields : list internal.DBPredictedYield) (w' : world),
    get_predicted_solar_yields_for_location
      Asia_Kolkata clock_2023_12_21 half_draws "delhi" w0 = Ok yields w'
    /\ Forall (fun r => is_int (internal.TimeUnix r) = false) yields
    /\ (1152 <= length yields)%nat.
Proof.
  destruct (series_TimeUnix_is_float Asia_Kolkata clock_2023_12_21
              half_draws "delhi" w0)
    as (ys & w' & Hret & Htypes & Hlen).
  exists ys, w'. split; [exact Hret|]. split.
  - eapply Forall_impl; [|exact Htypes]. intros r H. apply H.
  - apply Hlen. apply Z.le_refl.
Defined.

Lemma series_band_ordered_witness :
  draws_in_unit half_draws
  /\ exists (yields : list internal.DBPredictedYield) (w' : world),
       get_predicted_solar_yields_for_location
         Asia_Kolkata clock_2023_12_21 half_draws "delhi" w0 = Ok yields w'
       /\ Forall (fun r =>
                    exists (l y h : Z),
                      internal.ErrLow r = PyInt l
                      /\ internal.YieldKW r = PyInt y
                      /\ internal.ErrHigh r = PyInt h
                      /\ (0 <= l)%Z /\ (l <= y)%Z /\ (y <= h)%Z) yields.
Proof.
  split; [exact half_draws_in_unit|].
  apply series_band_ordered. exact half_draws_in_unit.
Defined.

Lemma noise_and_yield_bound_witness :
  let time := dt.fromtimestamp Asia_Kolkata (to_R (PyInt summer_noon)) in
  draws_in_unit half_draws
  /\ (0 <= default_scaleFactor)%Z
  /\ noise time (1 / 2) = 1 / 2 / 20 + 0.97
  /\ 0.97 <= noise time (1 / 2) <= 1.02
  /\ 0 <= basefunc time <= 1
  /\ exists (y : FakeYield) (w' : world),
       BasicSolarYieldFunc Asia_Kolkata half_draws (PyInt summer_noon)
                           default_scaleFactor w0 = Ok y w'
       /\ YieldKW y = basefunc time * noise time (1 / 2)
                      * IZR default_scaleFactor
       /\ YieldKW y <= 1.02 * IZR default_scaleFactor.
Proof.
  cbv zeta. split; [exact half_draws_in_unit|]. split; [discriminate|].
  apply (noise_and_yield_bound Asia_Kolkata half_draws (PyInt summer_noon)
           default_scaleFactor w0 half_draws_in_unit).
  discriminate.
Defined.

(** C10 as stated, for every input, fails for a negative scale factor: at
    local midnight the yield is 0, which is above [1.02 * (-1)]. *)
Lemma yield_bound_fails_for_negative_scale :
  draws_in_unit half_draws
  /\ exists (y : FakeYield) (w' : world),
       BasicSolarYieldFunc Asia_Kolkata half_draws (PyInt winter_midnight)
                           (-1) w0 = Ok y w'
       /\ YieldKW y = 0
       /\ ~ (YieldKW y <= 1.02 * IZR (-1)).
Proof.
  split; [exact half_draws_in_unit|].
  destruct (BasicSolarYieldFunc_returns Asia_Kolkata half_draws
              (PyInt winter_midnight) (-1) w0)
    as (y & w' & Hret & _ & HY & _).
  exists y, w'. split; [exact Hret|].
  assert (HY0 : YieldKW y = 0).
  { rewrite HY, basefunc_midnight;
      [ring| | |]; rewrite fromtimestamp_winter_midnight; reflexivity. }
  split; [exact HY0|]. rewrite HY0. lra.
Qed.

(** * Further properties of the module *)

(** ** The yield curve, call by call *)

(** The two outcomes of a call, with the state each leaves. *)
Lemma BasicSolarYieldFunc_eq (tz : Z -> Z) (rand : nat -> R)
    (timeUnix : number) (scaleFactor : Z) (w : world) :
  let time := dt.fromtimestamp tz (to_R timeUnix) in
  let output := basefunc time * noise time (rand (rng_draws w))
                * IZR scaleFactor in
  BasicSolarYieldFunc tz rand timeUnix scaleFactor w
  = if Rlt_dec 0 output then
      Ok {| YieldKW := output;
            ErrLow := output - rand (S (rng_draws w)) * output / 10;
            ErrHigh := output + rand (S (S (rng_draws w))) * output / 10 |}
         {| clock_reads := clock_reads w;
            rng_draws := S (S (S (rng_draws w))) |}
    else
      Ok {| YieldKW := output; ErrLow := 0; ErrHigh := 0 |}
         {| clock_reads := clock_reads w; rng_draws := S (rng_draws w) |}.
Proof.
  intros time output.
  unfold BasicSolarYieldFunc.
  change (dt.fromtimestamp tz (to_R timeUnix)) with time.
  clearbody time.
  cbv [bind random ret]. cbn [rng_draws clock_reads].
  change (basefunc time * noise time (rand (rng_draws w)) * IZR scaleFactor)
    with output.
  clearbody output.
  destruct (Rlt_dec 0 output); [reflexivity|].
  f_equal. f_equal; lra.
Qed.

(** At noon the base function is what the seasonal offset leaves of the
    full sine: at least [1/81] in every month. *)
Lemma basefunc_noon_lower (time : dt.civil) :
  dt.hour time = 12%Z -> dt.minute time = 0%Z -> dt.second time = 0%Z ->
  1 / 81 <= basefunc time.
Proof.
  intros Hh Hm Hs. unfold basefunc. rewrite Hh, Hm, Hs, sin_noon.
  pose proof (translateY_bound (dt.month time)) as Hty.
  set (ty := sin (PI / 6 * IZR (dt.month time) + - PI / 2) / 2.0) in *.
  unfold max0. destruct (Rlt_dec 0 (1 + ty)) as [_|H]; [|exfalso; lra].
  assert (Hp : (1 / 2) ^ 4 <= (1 + ty) ^ 4) by (apply pow_incr; lra).
  apply Rmult_le_reg_r with (1.5 ^ 4); [lra|].
  unfold Rdiv at 2. rewrite Rmult_assoc, Rinv_l by lra. lra.
Qed.



(** X1: a call never reads the clock and draws from the generator once when
    the yield is not positive, three times when it is. *)
Theorem BasicSolarYieldFunc_draws (tz : Z -> Z) (rand : nat -> R)
    (timeUnix : number) (scaleFactor : Z) (w : world) :
  exists (y : FakeYield) (w' : world),
    BasicSolarYieldFunc tz rand timeUnix scaleFactor w = Ok y w'
    /\ clock_reads w' = clock_reads w
    /\ (0 < YieldKW y -> rng_draws w' = (rng_draws w + 3)%nat)
    /\ (YieldKW y <= 0 -> rng_draws w' = (rng_draws w + 1)%nat).
Proof.
  rewrite BasicSolarYieldFunc_eq.
  destruct (Rlt_dec 0 _) as [Hpos|Hnpos];
    eexists; eexists; (split; [reflexivity|]);
    cbn [clock_reads rng_draws YieldKW];
    (split; [reflexivity|]); split; intros H; try lia; lra.
Qed.




(** ** The window, read by read *)

Lemma replace_midnight_eq (d : dt.datetime) :
  dt.replace_midnight d = (dt.us_per_day * (d / dt.us_per_day))%Z.
Proof.
  unfold dt.replace_midnight.
  pose proof (Z.div_mod d dt.us_per_day ltac:(discriminate)). lia.
Qed.

Lemma replace_midnight_shift (d k : Z) :
  dt.replace_midnight (d + dt.days k)%Z
  = (dt.us_per_day * (d / dt.us_per_day + k))%Z.
Proof.
  rewrite replace_midnight_eq. unfold dt.days.
  rewrite Z.div_add by discriminate. reflexivity.
Qed.

Lemma replace_midnight_bounds (d : dt.datetime) :
  (dt.replace_midnight d <= d < dt.replace_midnight d + dt.us_per_day)%Z.
Proof.
  unfold dt.replace_midnight.
  pose proof (Z.mod_pos_bound d dt.us_per_day ltac:(reflexivity)). lia.
Qed.



(** The length of the window in days. *)
Lemma getWindow_span (clock : nat -> dt.datetime) (c : nat) :
  (dt.replace_midnight (clock (S c) + dt.days 2)
   - dt.replace_midnight (clock c - dt.days 2)
   = dt.us_per_day
     * (clock (S c) / dt.us_per_day - clock c / dt.us_per_day + 4))%Z.
Proof.
  replace (clock c - dt.days 2)%Z with (clock c + dt.days (-2))%Z
    by (unfold dt.days; lia).
  rewrite !replace_midnight_shift. lia.
Qed.

(** X9: the window is a whole number of days: four, plus the number of UTC
    midnights that pass between the two clock reads.  With a clock that
    does not run backwards it has the first reading at least two days
    after its start and the second more than one day before its end. *)
Theorem getWindow_span_days (clock : nat -> dt.datetime) (w : world) :
  let n1 := clock (clock_reads w) in
  let n2 := clock (S (clock_reads w)) in
  exists (start end_ : dt.datetime) (w' : world),
    getWindow clock w = Ok (start, end_) w'
    /\ (end_ - start
        = dt.days (n2 / dt.us_per_day - n1 / dt.us_per_day + 4))%Z
    /\ ((n1 / dt.us_per_day = n2 / dt.us_per_day)%Z ->
        (end_ - start = dt.days 4)%Z)
    /\ ((n1 <= n2)%Z ->
        (dt.days 4 <= end_ - start)%Z
        /\ (start + dt.days 2 <= n1)%Z /\ (n2 + dt.days 1 < end_)%Z).
Proof.
  intros n1 n2.
  exists (dt.replace_midnight (n1 - dt.days 2)%Z),
         (dt.replace_midnight (n2 + dt.days 2)%Z),
         {| clock_reads := S (S (clock_reads w)); rng_draws := rng_draws w |}.
  split; [apply getWindow_returns|].
  pose proof (getWindow_span clock (clock_reads w)) as Hspan.
  fold n1 in Hspan. fold n2 in Hspan.
  split; [rewrite Hspan; unfold dt.days; lia|].
  split.
  - intros Hsame. rewrite Hspan, Hsame. unfold dt.days. lia.
  - intros Hmono.
    pose proof (Z.div_le_mono n1 n2 dt.us_per_day ltac:(reflexivity) Hmono)
      as Hq.
    pose proof (replace_midnight_bounds (n1 - dt.days 2)%Z) as Hb1.
    pose proof (replace_midnight_bounds (n2 + dt.days 2)%Z) as Hb2.
    assert (HD : (0 < dt.us_per_day)%Z) by reflexivity.
    unfold dt.days in *. split; [nia|]. lia.
Qed.

(** ** The series, record by record *)

Lemma us_per_day_steps : dt.us_per_day = (288 * step)%Z.
Proof. reflexivity. Qed.

(** The number of steps of a window of [k] days, of either sign. *)
Lemma int_days_div_step (k : Z) :
  int (IZR (dt.us_per_day * k) / IZR step) = (288 * k)%Z.
Proof.
  replace (IZR (dt.us_per_day * k) / IZR step) with (IZR (288 * k)).
  - apply int_IZR.
  - rewrite us_per_day_steps, !mult_IZR. field.
    apply not_0_IZR. discriminate.
Qed.

Lemma series_length (tz : Z -> Z) (clock : nat -> dt.datetime)
    (rand : nat -> R) (location : string) (w : world)
    (ys : list internal.DBPredictedYield) (w' : world) :
  get_predicted_solar_yields_for_location tz clock rand location w
  = Ok ys w' ->
  length ys
  = Z.to_nat (288 * (clock (S (clock_reads w)) / dt.us_per_day
                     - clock (clock_reads w) / dt.us_per_day + 4)).
Proof.
  intros Hret.
  destruct (get_predicted_returns tz clock rand location w)
    as (ys0 & w0' & Hret0 & Hys).
  rewrite Hret in Hret0. apply Ok_inj in Hret0 as [<- _].
  rewrite getWindow_span, int_days_div_step in Hys.
  apply Forall2_length in Hys. now rewrite range_length in Hys.
Qed.


(** X11: the series depends on the clock through the UTC days of its two
    readings only: two clocks that agree on those days give, from the same
    state and whatever the locations, the same result. *)
Theorem series_same_within_day (tz : Z -> Z) (clock1 clock2 : nat -> dt.datetime)
    (rand : nat -> R) (location1 location2 : string) (w : world) :
  (clock1 (clock_reads w) / dt.us_per_day
   = clock2 (clock_reads w) / dt.us_per_day)%Z ->
  (clock1 (S (clock_reads w)) / dt.us_per_day
   = clock2 (S (clock_reads w)) / dt.us_per_day)%Z ->
  get_predicted_solar_yields_for_location tz clock1 rand location1 w
  = get_predicted_solar_yields_for_location tz clock2 rand location2 w.
Proof.
  intros H1 H2.
  unfold get_predicted_solar_yields_for_location, bind.
  rewrite !getWindow_returns.
  replace (clock1 (clock_reads w) - dt.days 2)%Z
    with (clock1 (clock_reads w) + dt.days (-2))%Z by (unfold dt.days; lia).
  replace (clock2 (clock_reads w) - dt.days 2)%Z
    with (clock2 (clock_reads w) + dt.days (-2))%Z by (unfold dt.days; lia).
  rewrite !replace_midnight_shift, H1, H2. reflexivity.
Qed.




Lemma int_le_IZR (x : R) (z : Z) : 0 <= x -> x <= IZR z -> (int x <= z)%Z.
Proof.
  intros H0 Hx. rewrite <- (int_IZR z). now apply int_le.
Qed.

Lemma int_ge_IZR (x : R) (z : Z) : (0 <= z)%Z -> IZR z <= x -> (z <= int x)%Z.
Proof.
  intros H0 Hx. rewrite <- (int_IZR z) at 1.
  apply int_le; [now apply IZR_le|exact Hx].
Qed.

Lemma produced_at_bounded (tz : Z -> Z) (rand : nat -> R)
    (start : dt.datetime) (i : Z) (r : internal.DBPredictedYield) :
  draws_in_unit rand ->
  produced_at tz rand start i r ->
  exists (l y h : Z),
    internal.ErrLow r = PyInt l /\ internal.YieldKW r = PyInt y
    /\ internal.ErrHigh r = PyInt h
    /\ (l <= 10200)%Z /\ (y <= 10200)%Z /\ (h <= 11220)%Z.
Proof.
  intros Hrand (y & w & w' & Hret & ->).
  assert (Hscale : (0 <= default_scaleFactor)%Z) by discriminate.
  pose proof (BasicSolarYieldFunc_ordered _ _ _ _ _ _ _ Hrand Hscale Hret)
    as (HL & HLY & HYH).
  destruct (BasicSolarYieldFunc_returns tz rand
              (PyFloat (dt.timestamp (start + i * step)%Z))
              default_scaleFactor w)
    as (y0 & w0' & Hret0 & _ & HY & Hpos & Hzero).
  rewrite Hret in Hret0. apply Ok_inj in Hret0 as [<- _].
  set (time := dt.fromtimestamp tz
                 (to_R (PyFloat (dt.timestamp (start + i * step)%Z)))) in *.
  set (rd := rand (rng_draws w)) in *.
  pose proof (basefunc_range time) as Hb.
  pose proof (noise_range time rd (Hrand (rng_draws w))) as Hn.
  assert (HYmax : YieldKW y <= 10200).
  { rewrite HY. unfold default_scaleFactor.
    assert (basefunc time * noise time rd <= 1 * 1.02)
      by (apply Rmult_le_compat; lra).
    lra. }
  assert (HHmax : ErrHigh y <= 11220).
  { rewrite <- HY in Hpos, Hzero.
    destruct (Rlt_dec 0 (YieldKW y)) as [Hp|Hnp].
    - destruct (Hpos Hp) as [_ HH].
      pose proof (Hrand (S (S (rng_draws w)))) as H2.
      rewrite HH. nra.
    - destruct (Hzero Hnp) as [_ HH]. rewrite HH. lra. }
  exists (int (ErrLow y)), (int (YieldKW y)), (int (ErrHigh y)).
  cbn. repeat split; apply int_le_IZR; lra.
Qed.

(** X13: with draws in [0,1], no record of the series has a yield or a low
    error bound above 10200 or a high error bound above 11220 (the default
    scale factor 10000, the largest noise 1.02, ten per cent above). *)
Theorem series_fields_bounded (tz : Z -> Z) (clock : nat -> dt.datetime)
    (rand : nat -> R) (location : string) (w : world) :
  draws_in_unit rand ->
  exists (yields : list internal.DBPredictedYield) (w' : world),
    get_predicted_solar_yields_for_location tz clock rand location w
    = Ok yields w'
    /\ Forall (fun r =>
                 exists (l y h : Z),
                   internal.ErrLow r = PyInt l
                   /\ internal.YieldKW r = PyInt y
                   /\ internal.ErrHigh r = PyInt h
                   /\ (l <= 10200)%Z /\ (y <= 10200)%Z /\ (h <= 11220)%Z)
              yields.
Proof.
  intros Hrand.
  destruct (get_predicted_returns tz clock rand location w)
    as (ys & w' & Hret & Hys).
  exists ys, w'. split; [exact Hret|].
  eapply Forall2_Forall_r; [|exact Hys].
  intros i r. now apply produced_at_bounded.
Qed.

(** The local time of day of a whole epoch second. *)
Lemma fromtimestamp_time_of_day (tz : Z -> Z) (s : Z) :
  let time := dt.fromtimestamp tz (IZR s) in
  let sod := ((s + tz s) mod 86400)%Z in
  dt.hour time = (sod / 3600)%Z
  /\ dt.minute time = (sod mod 3600 / 60)%Z
  /\ dt.second time = (sod mod 60)%Z.
Proof.
  cbv zeta. rewrite fromtimestamp_IZR. unfold dt.civil_of_us.
  rewrite Z.div_mul by discriminate.
  destruct (dt.civil_from_days ((s + tz s) / 86400)) as [[y m] d].
  cbn. repeat split.
Qed.

(** The epoch second of step [i] of the window of [getWindow], and its
    second of the day in a zone [off] seconds ahead of UTC. *)
Lemma step_second (n1 : dt.datetime) (i : Z) :
  let start := dt.replace_midnight (n1 - dt.days 2)%Z in
  let s := (86400 * (n1 / dt.us_per_day - 2) + 300 * i)%Z in
  dt.timestamp (start + i * step)%Z = IZR s
  /\ forall off : Z, ((s + off) mod 86400 = (300 * i + off) mod 86400)%Z.
Proof.
  cbv zeta. split.
  - replace (n1 - dt.days 2)%Z with (n1 + dt.days (-2))%Z
      by (unfold dt.days; lia).
    rewrite replace_midnight_shift.
    set (q := (n1 / dt.us_per_day)%Z).
    assert (Hz : (dt.us_per_day * (q + -2) + i * step
                  = (86400 * (q - 2) + 300 * i) * dt.us_per_second)%Z).
    { rewrite step_eq. unfold dt.us_per_day. lia. }
    unfold dt.timestamp. rewrite Hz, mult_IZR. field.
    apply not_0_IZR. discriminate.
  - intros off.
    replace (86400 * (n1 / dt.us_per_day - 2) + 300 * i + off)%Z
      with (300 * i + off + (n1 / dt.us_per_day - 2) * 86400)%Z by lia.
    apply Z.mod_add. discriminate.
Qed.

(** X14: in a zone at a fixed offset from UTC, every record of the series
    that falls on local midnight has yield and both error bounds 0. *)
Theorem series_midnight_records (tz : Z -> Z) (clock : nat -> dt.datetime)
    (rand : nat -> R) (location : string) (w : world) (off : Z) :
  (forall s : Z, tz s = off) ->
  exists (yields : list internal.DBPredictedYield) (w' : world),
    get_predicted_solar_yields_for_location tz clock rand location w
    = Ok yields w'
    /\ forall (i : nat) (r : internal.DBPredictedYield),
         nth_error yields i = Some r ->
         ((300 * Z.of_nat i + off) mod 86400 = 0)%Z ->
         internal.YieldKW r = PyInt 0
         /\ internal.ErrLow r = PyInt 0
         /\ internal.ErrHigh r = PyInt 0.
Proof.
  intros Htz.
  destruct (get_predicted_returns tz clock rand location w)
    as (ys & w' & Hret & Hys).
  exists ys, w'. split; [exact Hret|]. intros i r Hnth Hmid.
  pose proof (Forall2_range_nth_error _ _ _ Hys i r Hnth)
    as (y & wa & wb & Hcall & ->).
  destruct (step_second (clock (clock_reads w)) (Z.of_nat i)) as [Hts Hsod].
  set (s := (86400 * (clock (clock_reads w) / dt.us_per_day - 2)
             + 300 * Z.of_nat i)%Z) in *.
  destruct (BasicSolarYieldFunc_returns tz rand
              (PyFloat (dt.timestamp
                 (dt.replace_midnight (clock (clock_reads w) - dt.days 2)
                  + Z.of_nat i * step)%Z))
              default_scaleFactor wa)
    as (y0 & w0' & Hret0 & _ & HY & _ & Hzero).
  rewrite Hcall in Hret0. apply Ok_inj in Hret0 as [<- _].
  cbn [to_R] in HY, Hzero. rewrite Hts in HY, Hzero.
  destruct (fromtimestamp_time_of_day tz s) as (Hh & Hm & Hs).
  rewrite Htz, Hsod, Hmid in Hh, Hm, Hs.
  rewrite (basefunc_midnight _ Hh Hm Hs) in HY, Hzero.
  assert (HY0 : YieldKW y = 0) by (rewrite HY; ring).
  destruct Hzero as [HL HH]; [lra|].
  unfold record_at. cbn. rewrite HY0, HL, HH.
  change 0 with (IZR 0). rewrite int_IZR. repeat split.
Qed.

(** X15: in a zone at a fixed offset from UTC and with draws in [0,1],
    every record of the series that falls on local noon has a yield of at
    least 119 (the integer part of [0.97 * 10000 / 81]). *)
Theorem series_noon_records (tz : Z -> Z) (clock : nat -> dt.datetime)
    (rand : nat -> R) (location : string) (w : world) (off : Z) :
  (forall s : Z, tz s = off) ->
  draws_in_unit rand ->
  exists (yields : list internal.DBPredictedYield) (w' : world),
    get_predicted_solar_yields_for_location tz clock rand location w
    = Ok yields w'
    /\ forall (i : nat) (r : internal.DBPredictedYield),
         nth_error yields i = Some r ->
         ((300 * Z.of_nat i + off) mod 86400 = 43200)%Z ->
         exists y : Z, internal.YieldKW r = PyInt y /\ (119 <= y)%Z.
Proof.
  intros Htz Hrand.
  destruct (get_predicted_returns tz clock rand location w)
    as (ys & w' & Hret & Hys).
  exists ys, w'. split; [exact Hret|]. intros i r Hnth Hnoon.
  pose proof (Forall2_range_nth_error _ _ _ Hys i r Hnth)
    as (y & wa & wb & Hcall & ->).
  destruct (step_second (clock (clock_reads w)) (Z.of_nat i)) as [Hts Hsod].
  set (s := (86400 * (clock (clock_reads w) / dt.us_per_day - 2)
             + 300 * Z.of_nat i)%Z) in *.
  destruct (BasicSolarYieldFunc_returns tz rand
              (PyFloat (dt.timestamp
                 (dt.replace_midnight (clock (clock_reads w) - dt.days 2)
                  + Z.of_nat i * step)%Z))
              default_scaleFactor wa)
    as (y0 & w0' & Hret0 & _ & HY & _).
  rewrite Hcall in Hret0. apply Ok_inj in Hret0 as [<- _].
  cbn [to_R] in HY. rewrite Hts in HY.
  destruct (fromtimestamp_time_of_day tz s) as (Hh & Hm & Hs).
  rewrite Htz, Hsod, Hnoon in Hh, Hm, Hs.
  pose proof (basefunc_noon_lower _ Hh Hm Hs) as Hb.
  pose proof (noise_range (dt.fromtimestamp tz (IZR s)) _
                (Hrand (rng_draws wa))) as [Hn _].
  exists (int (YieldKW y)). split; [reflexivity|].
  apply int_ge_IZR; [discriminate|]. rewrite HY.
  unfold default_scaleFactor.
  assert (1 / 81 * 0.97
          <= basefunc (dt.fromtimestamp tz (IZR s))
             * noise (dt.fromtimestamp tz (IZR s)) (rand (rng_draws wa)))
    by (apply Rmult_le_compat; lra).
  lra.
Qed.

(** ** The further properties at the sample environment *)


Lemma Asia_Kolkata_fixed (s : Z) : Asia_Kolkata s = 19800%Z.
Proof. reflexivity. Qed.

Lemma BasicSolarYieldFunc_draws_witness :
  exists (y : FakeYield) (w' : world),
    BasicSolarYieldFunc Asia_Kolkata half_draws (PyInt summer_noon)
                        default_scaleFactor w0 = Ok y w'
    /\ 0 < YieldKW y /\ clock_reads w' = 0%nat /\ rng_draws w' = 3%nat.
Proof.
  destruct (BasicSolarYieldFunc_draws Asia_Kolkata half_draws
              (PyInt summer_noon) default_scaleFactor w0)
    as (y & w' & Hret & Hclock & Hpos & _).
  exists y, w'. split; [exact Hret|].
  assert (HY : 0 < YieldKW y).
  { destruct (BasicSolarYieldFunc_returns Asia_Kolkata half_draws
                (PyInt summer_noon) default_scaleFactor w0)
      as (y0 & w1 & Hret0 & _ & HY & _).
    rewrite Hret in Hret0. apply Ok_inj in Hret0 as [<- _].
    rewrite HY, basefunc_summer_noon, noise_eq.
    unfold half_draws, default_scaleFactor. lra. }
  split; [exact HY|]. split; [exact Hclock|]. exact (Hpos HY).
Defined.




Lemma getWindow_span_days_witness :
  exists (start end_ : dt.datetime) (w' : world),
    getWindow clock_2023_12_21 w0 = Ok (start, end_) w'
    /\ (end_ - start = dt.days 4)%Z
    /\ (start + dt.days 2 <= clock_2023_12_21 0)%Z
    /\ (clock_2023_12_21 1 + dt.days 1 < end_)%Z.
Proof.
  destruct (getWindow_span_days clock_2023_12_21 w0)
    as (start & end_ & w' & Hret & _ & Hsame & Hmono).
  exists start, end_, w'. split; [exact Hret|].
  split; [apply Hsame; reflexivity|].
  destruct Hmono as (_ & H1 & H2); [apply Z.le_refl|]. split; assumption.
Defined.


Lemma series_same_within_day_witness :
  clock_2023_12_21 0 <> clock_2023_12_21_evening 0
  /\ get_predicted_solar_yields_for_location
       Asia_Kolkata clock_2023_12_21 half_draws "delhi" w0
     = get_predicted_solar_yields_for_location
         Asia_Kolkata clock_2023_12_21_evening half_draws "mumbai" w0.
Proof.
  split; [discriminate|].
  apply series_same_within_day; reflexivity.
Defined.

Lemma series_fields_bounded_witness :
  exists (yields : list internal.DBPredictedYield) (w' : world),
    get_predicted_solar_yields_for_location
      Asia_Kolkata clock_2023_12_21 half_draws "delhi" w0 = Ok yields w'
    /\ Forall (fun r =>
                 exists (l y h : Z),
                   internal.ErrLow r = PyInt l
                   /\ internal.YieldKW r = PyInt y
                   /\ internal.ErrHigh r = PyInt h
                   /\ (l <= 10200)%Z /\ (y <= 10200)%Z /\ (h <= 11220)%Z)
              yields.
Proof.
  apply series_fields_bounded. exact half_draws_in_unit.
Defined.

(** The sample series has a record at every index below 1152. *)
Lemma sample_series_nth (ys : list internal.DBPredictedYield) (w' : world)
    (i : nat) :
  get_predicted_solar_yields_for_location
    Asia_Kolkata clock_2023_12_21 half_draws "delhi" w0 = Ok ys w' ->
  (i < 1152)%nat ->
  exists r : internal.DBPredictedYield, nth_error ys i = Some r.
Proof.
  intros Hret Hi. apply series_length in Hret.
  change (length ys = 1152%nat) in Hret.
  destruct (nth_error ys i) as [r|] eqn:E; [now exists r|].
  apply nth_error_None in E. lia.
Qed.

Lemma series_midnight_records_witness :
  exists (yields : list internal.DBPredictedYield) (w' : world)
         (r : internal.DBPredictedYield),
    get_predicted_solar_yields_for_location
      Asia_Kolkata clock_2023_12_21 half_draws "delhi" w0 = Ok yields w'
    /\ nth_error yields 222 = Some r
    /\ internal.YieldKW r = PyInt 0
    /\ internal.ErrLow r = PyInt 0
    /\ internal.ErrHigh r = PyInt 0.
Proof.
  destruct (series_midnight_records Asia_Kolkata clock_2023_12_21 half_draws
              "delhi" w0 19800 Asia_Kolkata_fixed)
    as (ys & w' & Hret & Hmid).
  destruct (sample_series_nth ys w' 222 Hret) as (r & Hr); [lia|].
  exists ys, w', r. split; [exact Hret|]. split; [exact Hr|].
  apply (Hmid 222%nat r Hr). reflexivity.
Defined.

Lemma series_noon_records_witness :
  exists (yields : list internal.DBPredictedYield) (w' : world)
         (r : internal.DBPredictedYield) (y : Z),
    get_predicted_solar_yields_for_location
      Asia_Kolkata clock_2023_12_21 half_draws "delhi" w0 = Ok yields w'
    /\ nth_error yields 78 = Some r
    /\ internal.YieldKW r = PyInt y /\ (119 <= y)%Z.
Proof.
  destruct (series_noon_records Asia_Kolkata clock_2023_12_21 half_draws
              "delhi" w0 19800 Asia_Kolkata_fixed half_draws_in_unit)
    as (ys & w' & Hret & Hnoon).
  destruct (sample_series_nth ys w' 78 Hret) as (r & Hr); [lia|].
  destruct (Hnoon 78%nat r Hr) as (y & Hy & Hbound); [reflexivity|].
  exists ys, w', r, y. repeat split; assumption.
Defined.


(** * The module with its exceptions *)

(** ** Where the checked layer agrees with the module, and where it raises *)









(** ** The series under any clock *)




(** ** The operation and its exceptions *)










(** ** The error band in binary64 *)


(** ** Further properties, revised *)




